(** * ha-ocpp: the switch platform ([custom_components/ocpp/switch.py])

    A shallow embedding of the four switch descriptors and of the
    [ChargePointSwitch] entity: construction, the [is_on] property and the two
    commands [async_turn_on] and [async_turn_off].

    Python dictionaries are finite maps from strings to Python values, the
    entity is a record, and the methods run in a small state-and-exception
    monad whose state holds the entity ([self]), the central system the entity
    talks to, and the log of the calls made to it. *)

From stdpp Require Import gmap strings list.

Local Open Scope string_scope.

(** ** Python values *)

(** The values that occur in the descriptors and that the central system
    hands back: [None], booleans, integers and strings. *)
Inductive PyVal : Type :=
  | PyNone
  | PyBool (b : bool)
  | PyInt (n : Z)
  | PyStr (s : string).

Global Instance PyVal_eq_dec : EqDecision PyVal.
Proof. solve_decision. Defined.

(** [a == b]: a [bool] is an [int] in Python, so [True == 1]. *)
Definition py_eq (a b : PyVal) : bool :=
  match a, b with
  | PyNone, PyNone => true
  | PyBool x, PyBool y => Bool.eqb x y
  | PyInt x, PyInt y => Z.eqb x y
  | PyBool x, PyInt y => Z.eqb (Z.b2z x) y
  | PyInt x, PyBool y => Z.eqb x (Z.b2z y)
  | PyStr x, PyStr y => String.eqb x y
  | _, _ => false
  end.

(** [bool(v)] *)
Definition py_bool (v : PyVal) : bool :=
  match v with
  | PyNone => false
  | PyBool b => b
  | PyInt n => negb (Z.eqb n 0)
  | PyStr s => negb (String.eqb s "")
  end.

(** [v is None] *)
Definition py_is_none (v : PyVal) : bool :=
  match v with PyNone => true | _ => false end.

(** [v is True] *)
Definition py_is_True (v : PyVal) : bool :=
  match v with PyBool true => true | _ => false end.

(** ** Exceptions and results *)

Inductive PyExn : Type :=
  | KeyError (key : string)
  | TypeError.

Inductive Result (A : Type) : Type :=
  | Ok (a : A)
  | Raise (e : PyExn).
Arguments Ok {A} a.
Arguments Raise {A} e.

(** ** Dictionaries *)

Abbreviation dict := (gmap string PyVal).

(** A dictionary display [{k1: v1, ..., kn: vn}]: later keys win. *)
Definition dict_of (items : list (string * PyVal)) : dict :=
  foldl (fun d kv => <[kv.1 := kv.2]> d) ∅ items.

(** [d.get(k)] *)
Definition dict_get (d : dict) (k : string) : PyVal :=
  default PyNone (d !! k).

(** [d.get(k, dflt)] *)
Definition dict_get_default (d : dict) (k : string) (dflt : PyVal) : PyVal :=
  default dflt (d !! k).

(** [d[k]] *)
Definition dict_getitem (d : dict) (k : string) : Result PyVal :=
  match d !! k with
  | Some v => Ok v
  | None => Raise (KeyError k)
  end.

(** [sep.join(parts)]: a part that is not a string is a [TypeError]. *)
Fixpoint str_parts (parts : list PyVal) : Result (list string) :=
  match parts with
  | [] => Ok []
  | PyStr s :: rest =>
      match str_parts rest with
      | Ok ss => Ok (s :: ss)
      | Raise e => Raise e
      end
  | _ :: _ => Raise TypeError
  end.

Definition str_join (sep : string) (parts : list PyVal) : Result string :=
  match str_parts parts with
  | Ok ss => Ok (String.concat sep ss)
  | Raise e => Raise e
  end.

(** ** Constants imported from modules outside this file *)

(** [switch.py] imports [DOMAIN] from [const.py], [HAChargerStatuses] from
    [enums.py] and [ChargePointStatus] from [ocpp.v16.enums]; none of the
    three modules is part of this file, so the values are parameters of the
    development.  [DOMAIN] is the name space of the unique identifier, and
    the three enum values are the telemetry key and the two readings it is
    compared with; they are strings, and nothing else is assumed of them.
    The [.name] of a member of [HAChargerServices] is the member's own
    identifier, and is written out in the descriptors below. *)
Record Consts : Type := {
  DOMAIN : string;
  HAChargerStatuses_status : string;
  ChargePointStatus_charging : string;
  ChargePointStatus_available : string;
}.

(** ** The central system *)

(** Modelled from the spec: [api.CentralSystem] is imported by [switch.py];
    the entity uses two of its methods.  [get_metric(cp_id, key)] is the Metric
    Store: it returns the current reading, or a sentinel, and changes nothing.
    [set_charger_state(cp_id, service, state?)] is the Command Channel: it
    reports acceptance as a boolean and may change the central system.  The
    third argument is [None] when the call site passes two arguments. *)
Class CentralSystem (CS : Type) : Type := {
  get_metric : CS → string → PyVal → PyVal;
  set_charger_state : CS → string → PyVal → option bool → bool * CS;
}.

(** A call made by an entity to its central system. *)
Inductive Call : Type :=
  | GetMetric (cp : string) (key : PyVal)
  | SetChargerState (cp : string) (service : PyVal) (state : option bool).

(** ** The entity *)

Record ChargePointSwitch : Type := {
  cp_id : string;
  _state : bool;
  _purpose : dict;
  _id : string;
  _name : string;
  entity_id : string;
}.

Definition with_state (b : bool) (sw : ChargePointSwitch) : ChargePointSwitch :=
  {| cp_id := cp_id sw; _state := b; _purpose := _purpose sw;
     _id := _id sw; _name := _name sw; entity_id := entity_id sw |}.

(** ** The descriptors *)

Section Descriptors.
Context (c : Consts).

Definition SWITCH_CHARGE : dict :=
  dict_of [ ("name", PyStr "Charge_Control");
            ("on", PyStr "service_charge_start");
            ("off", PyStr "service_charge_stop");
            ("metric", PyStr (HAChargerStatuses_status c));
            ("condition", PyStr (ChargePointStatus_charging c)) ].

Definition SWITCH_AVAILABILITY : dict :=
  dict_of [ ("name", PyStr "Availability");
            ("on", PyStr "service_availability");
            ("off", PyStr "service_availability");
            ("default", PyBool true);
            ("metric", PyStr (HAChargerStatuses_status c));
            ("condition", PyStr (ChargePointStatus_available c)) ].

Definition SWITCH_RESET : dict :=
  dict_of [ ("name", PyStr "Reset");
            ("on", PyStr "service_reset");
            ("pulse", PyBool true) ].

Definition SWITCH_UNLOCK : dict :=
  dict_of [ ("name", PyStr "Unlock");
            ("on", PyStr "service_unlock");
            ("pulse", PyBool true) ].

(** The list [async_setup_entry] iterates over. *)
Definition descriptors : list dict :=
  [SWITCH_CHARGE; SWITCH_AVAILABILITY; SWITCH_RESET; SWITCH_UNLOCK].
End Descriptors.

(** The three tests the entity makes on its descriptor. *)

(** [purpose.get("metric") is not None] *)
Definition metric_driven (purpose : dict) : bool :=
  negb (py_is_none (dict_get purpose "metric")).

(** [purpose.get("pulse", False) is True] *)
Definition is_pulse (purpose : dict) : bool :=
  py_is_True (dict_get_default purpose "pulse" (PyBool false)).

(** [purpose.get("default") is not None] *)
Definition default_driven (purpose : dict) : bool :=
  negb (py_is_none (dict_get purpose "default")).

(** [purpose.get("off") is None] *)
Definition off_absent (purpose : dict) : bool :=
  py_is_none (dict_get purpose "off").

(** How many of the three modes a descriptor declares. *)
Definition mode_count (purpose : dict) : nat :=
  Nat.b2n (metric_driven purpose) + Nat.b2n (is_pulse purpose)
  + Nat.b2n (default_driven purpose).

(** ** The monad of the methods *)

(** What a method can read and change: the entity itself, the central system
    shared by the entities of a configuration entry, and the log of the calls
    received by the central system so far (oldest first). *)
Record Env (CS : Type) : Type := {
  self : ChargePointSwitch;
  central_system : CS;
  calls : list Call;
}.
Arguments self {CS} e.
Arguments central_system {CS} e.
Arguments calls {CS} e.
Arguments Build_Env {CS} self central_system calls.

Definition M (CS A : Type) : Type := Env CS → Result (A * Env CS).

Global Instance M_ret {CS} : MRet (M CS) :=
  λ A (a : A) (e : Env CS), Ok (a, e).

Global Instance M_bind {CS} : MBind (M CS) :=
  λ A B (k : A → M CS B) (m : M CS A) (e : Env CS),
    match m e with
    | Ok (a, e') => k a e'
    | Raise x => Raise x
    end.

Section Methods.
Context {CS : Type} `{!CentralSystem CS}.

(** Lift a dictionary subscript or a join: the exception propagates. *)
Definition lift {A} (r : Result A) : M CS A :=
  λ e, match r with Ok a => Ok (a, e) | Raise x => Raise x end.

(** [self.<field>] *)
Definition get_self {A} (field : ChargePointSwitch → A) : M CS A :=
  λ e, Ok (field (self e), e).

(** [self._state = b] *)
Definition set_state (b : bool) : M CS unit :=
  λ e, Ok (tt, {| self := with_state b (self e);
                  central_system := central_system e;
                  calls := calls e |}).

(** [self.central_system.get_metric(cp, key)] *)
Definition call_get_metric (cp : string) (key : PyVal) : M CS PyVal :=
  λ e, Ok (get_metric (central_system e) cp key,
           {| self := self e;
              central_system := central_system e;
              calls := calls e ++ [GetMetric cp key] |}).

(** [await self.central_system.set_charger_state(cp, service[, state])] *)
Definition call_set_charger_state
    (cp : string) (service : PyVal) (state : option bool) : M CS bool :=
  λ e, let r := set_charger_state (central_system e) cp service state in
       Ok (r.1, {| self := self e;
                   central_system := r.2;
                   calls := calls e ++ [SetChargerState cp service state] |}).

(** The property [is_on]. *)
Definition is_on : M CS bool :=
  purpose ← get_self _purpose;
  (if metric_driven purpose then
     cp ← get_self cp_id;
     key ← lift (dict_getitem purpose "metric");
     resp ← call_get_metric cp key;
     cond ← lift (dict_getitem purpose "condition");
     if py_eq resp cond then set_state true else set_state false
   else mret tt) ;;
  get_self _state.

(** [async_turn_on] *)
Definition async_turn_on : M CS unit :=
  purpose ← get_self _purpose;
  if is_pulse purpose then
    cp ← get_self cp_id;
    service ← lift (dict_getitem purpose "on");
    resp ← call_set_charger_state cp service None;
    set_state (negb resp)
  else
    cp ← get_self cp_id;
    service ← lift (dict_getitem purpose "on");
    resp ← call_set_charger_state cp service None;
    set_state resp.

(** [async_turn_off] *)
Definition async_turn_off : M CS unit :=
  purpose ← get_self _purpose;
  resp ←
    (if off_absent purpose then mret true
     else
       off ← lift (dict_getitem purpose "off");
       on ← lift (dict_getitem purpose "on");
       if py_eq off on then
         cp ← get_self cp_id;
         service ← lift (dict_getitem purpose "off");
         call_set_charger_state cp service (Some false)
       else
         cp ← get_self cp_id;
         service ← lift (dict_getitem purpose "off");
         call_set_charger_state cp service None);
  set_state (negb resp).

(** The properties [unique_id] and [available]. *)
Definition unique_id : M CS string := get_self _id.
Definition available : M CS bool := mret true.
End Methods.

(** ** Construction *)

(** [hass]: [hass.data] maps an integration's domain to a map from the id of
    a configuration entry to what the integration stored for it, here the
    central system. *)
Record HomeAssistant (CS : Type) : Type := {
  hass_data : gmap string (gmap string CS);
}.
Arguments hass_data {CS} h.
Arguments Build_HomeAssistant {CS} hass_data.

(** [entry]: a configuration entry, with its id and its [data] mapping. *)
Record ConfigEntry : Type := {
  entry_id : string;
  entry_data : dict;
}.

(** The one call [async_setup_entry] makes to the [async_add_devices]
    callback it is given: the entities, all holding [central_system], and
    the [update_before_add] flag. *)
Record AddDevices (CS : Type) : Type := {
  central : CS;
  new_entities : list ChargePointSwitch;
  update_before_add : bool;
}.
Arguments central {CS} a.
Arguments new_entities {CS} a.
Arguments update_before_add {CS} a.
Arguments Build_AddDevices {CS} central new_entities update_before_add.

Section Construction.
Context (c : Consts).

(** [ChargePointSwitch.__init__(central_system, cp_id, serv_desc)].  The
    reference to the central system is kept in the environment. *)
Definition __init__ (cp : string) (serv_desc : dict)
    : Result ChargePointSwitch :=
  let state :=
    if default_driven serv_desc
    then match dict_getitem serv_desc "default" with
         | Ok v => py_bool v
         | Raise _ => false
         end
    else false in
  match dict_getitem serv_desc "name" with
  | Raise x => Raise x
  | Ok name =>
      match str_join "." [PyStr "switch"; PyStr (DOMAIN c); PyStr cp; name],
            str_join "." [PyStr cp; name],
            str_join "_" [PyStr cp; name] with
      | Ok uid, Ok nm, Ok ent =>
          Ok {| cp_id := cp; _state := state; _purpose := serv_desc;
                _id := uid; _name := nm; entity_id := "switch." ++ ent |}
      | Raise x, _, _ => Raise x
      | _, Raise x, _ => Raise x
      | _, _, Raise x => Raise x
      end
  end.

(** [ChargePointSwitch(central_system, cp_id, ent)] as [async_setup_entry]
    calls it, with whatever value the configuration entry holds as [cp_id]:
    the constructor stores it and, when it is not a string, raises
    [TypeError] at the first join (line 67), after the ["name"] subscript. *)
Definition new_switch (cp : PyVal) (serv_desc : dict)
    : Result ChargePointSwitch :=
  match cp with
  | PyStr s => __init__ s serv_desc
  | _ =>
      match dict_getitem serv_desc "name" with
      | Raise x => Raise x
      | Ok _ => Raise TypeError
      end
  end.

(** The loop of [async_setup_entry]: one entity per descriptor, in order;
    the first constructor that raises ends it. *)
Fixpoint make_entities (cp : PyVal) (ents : list dict)
    : Result (list ChargePointSwitch) :=
  match ents with
  | [] => Ok []
  | ent :: rest =>
      match new_switch cp ent with
      | Raise x => Raise x
      | Ok sw =>
          match make_entities cp rest with
          | Ok sws => Ok (sw :: sws)
          | Raise x => Raise x
          end
      end
  end.

(** [async_setup_entry(hass, entry, async_add_devices)].  [CONF_CPID] is
    imported from [const.py], like [DOMAIN], and is a parameter.  The result
    is the call made to [async_add_devices]. *)
Definition async_setup_entry {CS : Type} (CONF_CPID : string)
    (hass : HomeAssistant CS) (entry : ConfigEntry)
    : Result (AddDevices CS) :=
  match hass_data hass !! DOMAIN c with
  | None => Raise (KeyError (DOMAIN c))
  | Some by_entry =>
      match by_entry !! entry_id entry with
      | None => Raise (KeyError (entry_id entry))
      | Some central_system =>
          match dict_getitem (entry_data entry) CONF_CPID with
          | Raise x => Raise x
          | Ok cp_id =>
              match make_entities cp_id (descriptors c) with
              | Raise x => Raise x
              | Ok entities =>
                  Ok {| central := central_system;
                        new_entities := entities;
                        update_before_add := false |}
              end
          end
      end
  end.
End Construction.

(** ** A scripted central system *)

(** A central system for running the methods on concrete inputs: the metric
    store is a map from (charge point, key) to the reading, with [None] as the
    reading of what it does not hold, and the command channel answers from a
    script, refusing once the script is used up. *)
Record Scripted : Type := {
  readings : gmap (string * string) PyVal;
  answers : list bool;
}.

Global Instance Scripted_central : CentralSystem Scripted := {|
  get_metric cs cp key :=
    match key with
    | PyStr k => default PyNone (readings cs !! (cp, k))
    | _ => PyNone
    end;
  set_charger_state cs cp service state :=
    match answers cs with
    | [] => (false, cs)
    | a :: rest => (a, {| readings := readings cs; answers := rest |})
    end;
|}.

(** The values the imported constants have in a deployment of the
    integration against OCPP 1.6. *)
Definition ocpp16 : Consts := {|
  DOMAIN := "ocpp";
  HAChargerStatuses_status := "Status";
  ChargePointStatus_charging := "Charging";
  ChargePointStatus_available := "Available";
|}.

(** ** Facts about values and dictionaries *)

Lemma py_eq_str (a b : string) : py_eq (PyStr a) (PyStr b) = true ↔ a = b.
Proof. simpl. apply String.eqb_eq. Qed.

Lemma py_eq_str_ne (a b : string) : a ≠ b → py_eq (PyStr a) (PyStr b) = false.
Proof. simpl. apply String.eqb_neq. Qed.

Lemma py_eq_refl (v : PyVal) : py_eq v v = true.
Proof.
  destruct v as [|b|n|s]; simpl; auto using Z.eqb_refl, String.eqb_refl.
  by destruct b.
Qed.

Lemma py_eq_none_l (v : PyVal) : py_eq PyNone v = py_is_none v.
Proof. by destruct v. Qed.

Lemma dict_get_not_none (d : dict) (k : string) :
  py_is_none (dict_get d k) = false →
  d !! k = Some (dict_get d k).
Proof. unfold dict_get. by destruct (d !! k). Qed.

Lemma dict_get_none (d : dict) (k : string) :
  py_is_none (dict_get d k) = true ↔ d !! k = None ∨ d !! k = Some PyNone.
Proof.
  unfold dict_get. destruct (d !! k) as [[]|]; simpl;
    (split; [intros ?; first [discriminate | auto] | intros [?|?]; congruence]).
Qed.

Lemma dict_getitem_get (d : dict) (k : string) :
  py_is_none (dict_get d k) = false →
  dict_getitem d k = Ok (dict_get d k).
Proof. intros H. unfold dict_getitem. by rewrite (dict_get_not_none d k H). Qed.

Lemma metric_driven_getitem (d : dict) :
  metric_driven d = true → dict_getitem d "metric" = Ok (dict_get d "metric").
Proof.
  unfold metric_driven. intros H. apply dict_getitem_get.
  by apply negb_true_iff.
Qed.

Lemma is_pulse_true (d : dict) :
  is_pulse d = true ↔ d !! "pulse" = Some (PyBool true).
Proof.
  unfold is_pulse, dict_get_default, py_is_True.
  destruct (d !! "pulse") as [[|[]| |]|]; simpl; naive_solver.
Qed.

Lemma with_state_twice (a b : bool) (sw : ChargePointSwitch) :
  with_state a (with_state b sw) = with_state a sw.
Proof. reflexivity. Qed.

Lemma with_state_same (sw : ChargePointSwitch) : with_state (_state sw) sw = sw.
Proof. by destruct sw. Qed.

(** Unfold one method down to the primitives of the monad. *)
Ltac run_method :=
  unfold mbind, M_bind, mret, M_ret, lift, get_self, set_state,
    call_get_metric, call_set_charger_state; simpl.

Section IsOn.
Context {CS : Type} `{!CentralSystem CS}.
Implicit Types (sw : ChargePointSwitch) (cs : CS) (log : list Call).

(** The metric branch of [is_on]: one [get_metric] call, then the comparison
    with the condition, whose outcome is cached and returned. *)
Lemma is_on_metric_run sw cs log (cond : PyVal) :
  metric_driven (_purpose sw) = true →
  _purpose sw !! "condition" = Some cond →
  is_on (Build_Env sw cs log)
    = Ok (py_eq (get_metric cs (cp_id sw) (dict_get (_purpose sw) "metric")) cond,
          Build_Env
            (with_state
               (py_eq (get_metric cs (cp_id sw) (dict_get (_purpose sw) "metric"))
                  cond) sw)
            cs
            (log ++ [GetMetric (cp_id sw) (dict_get (_purpose sw) "metric")])).
Proof.
  intros Hm Hc. unfold is_on. run_method.
  rewrite Hm, (metric_driven_getitem _ Hm). simpl.
  unfold dict_getitem. rewrite Hc.
  by destruct (py_eq _ cond).
Qed.

(** C1: for a descriptor with a metric key (and the condition it is compared
    with), [is_on] returns whether the reading the central system holds for
    (charge point, key) equals the condition; the result is stored as the new
    cached state, one [get_metric] call is made, and the result does not
    depend on the cached state before the call. *)
Theorem is_on_metric_driven sw cs log (cond : PyVal) :
  metric_driven (_purpose sw) = true →
  _purpose sw !! "condition" = Some cond →
  let key := dict_get (_purpose sw) "metric" in
  let r := py_eq (get_metric cs (cp_id sw) key) cond in
  is_on (Build_Env sw cs log)
    = Ok (r, Build_Env (with_state r sw) cs (log ++ [GetMetric (cp_id sw) key]))
  ∧ ∀ prior : bool,
      is_on (Build_Env (with_state prior sw) cs log)
        = Ok (r, Build_Env (with_state r sw) cs (log ++ [GetMetric (cp_id sw) key])).
Proof.
  intros Hm Hc key r. split.
  - by apply is_on_metric_run.
  - intros prior.
    by rewrite (is_on_metric_run (with_state prior sw) cs log cond Hm Hc).
Qed.

(** C8: when the central system answers the [get_metric] call with its
    sentinel for a reading it does not hold, and the sentinel differs from the
    condition, [is_on] raises nothing and returns false. *)
Theorem is_on_missing_metric sw cs log (cond sentinel : PyVal) :
  metric_driven (_purpose sw) = true →
  _purpose sw !! "condition" = Some cond →
  get_metric cs (cp_id sw) (dict_get (_purpose sw) "metric") = sentinel →
  py_eq sentinel cond = false →
  is_on (Build_Env sw cs log)
    = Ok (false,
          Build_Env (with_state false sw) cs
            (log ++ [GetMetric (cp_id sw) (dict_get (_purpose sw) "metric")])).
Proof.
  intros Hm Hc Hs Hne.
  rewrite (is_on_metric_run sw cs log cond Hm Hc).
  by rewrite Hs, Hne.
Qed.

(** C9: for a descriptor without a metric key, [is_on] returns the cached
    state and leaves the entity, the central system and the log of calls as
    they were. *)
Theorem is_on_cached sw cs log :
  metric_driven (_purpose sw) = false →
  is_on (Build_Env sw cs log) = Ok (_state sw, Build_Env sw cs log).
Proof.
  intros Hm. unfold is_on. run_method. by rewrite Hm.
Qed.

(** [is_on] subscripts the descriptor with ["condition"] whenever the metric
    key is set: without that key the call ends in a [KeyError]. *)
Lemma is_on_condition_missing sw cs log :
  metric_driven (_purpose sw) = true →
  _purpose sw !! "condition" = None →
  is_on (Build_Env sw cs log) = Raise (KeyError "condition").
Proof.
  intros Hm Hc. unfold is_on. run_method.
  rewrite Hm, (metric_driven_getitem _ Hm). simpl.
  unfold dict_getitem. by rewrite Hc.
Qed.

(** The condition is defined in each of the four descriptors that sets a
    metric key. *)
Lemma descriptors_condition_defined (c : Consts) (d : dict) :
  d ∈ descriptors c → metric_driven d = true → is_Some (d !! "condition").
Proof.
  unfold descriptors. rewrite !elem_of_cons, elem_of_nil.
  intros [->|[->|[->|[->|[]]]]]; intros Hm; vm_compute in Hm |- *;
    first [discriminate | eauto].
Qed.

(** C10: [is_on] on a descriptor with a metric key reads ["condition"]
    unconditionally: it returns a result when the condition is defined, ends
    in [KeyError "condition"] when it is not, and every one of the four
    descriptors of the module that sets a metric key defines the condition. *)
Theorem is_on_total_iff_condition (c : Consts) :
  (∀ sw cs log, metric_driven (_purpose sw) = true →
     (is_Some (_purpose sw !! "condition") →
        ∃ r e, is_on (Build_Env sw cs log) = Ok (r, e))
     ∧ (_purpose sw !! "condition" = None →
        is_on (Build_Env sw cs log) = Raise (KeyError "condition")))
  ∧ (∀ d, d ∈ descriptors c → metric_driven d = true →
       is_Some (d !! "condition")).
Proof.
  split.
  - intros sw cs log Hm. split.
    + intros [cond Hc].
      rewrite (is_on_metric_run sw cs log cond Hm Hc). eauto.
    + by apply is_on_condition_missing.
  - apply descriptors_condition_defined.
Qed.
End IsOn.

(** [sw'] is [sw] apart from its cached state. *)
Definition same_entity (sw sw' : ChargePointSwitch) : Prop :=
  cp_id sw' = cp_id sw
  ∧ _purpose sw' = _purpose sw
  ∧ _id sw' = _id sw
  ∧ _name sw' = _name sw
  ∧ entity_id sw' = entity_id sw.

Section Commands.
Context {CS : Type} `{!CentralSystem CS}.
Implicit Types (sw : ChargePointSwitch) (cs : CS) (log : list Call).

(** What [async_turn_on] returns and leaves behind. *)
Lemma async_turn_on_run sw cs log (service : PyVal) :
  _purpose sw !! "on" = Some service →
  let r := set_charger_state cs (cp_id sw) service None in
  async_turn_on (Build_Env sw cs log)
    = Ok (tt,
          Build_Env
            (with_state (if is_pulse (_purpose sw) then negb r.1 else r.1) sw)
            r.2
            (log ++ [SetChargerState (cp_id sw) service None])).
Proof.
  intros Hon r. unfold async_turn_on. run_method.
  unfold dict_getitem. rewrite Hon.
  by destruct (is_pulse (_purpose sw)).
Qed.

(** C2: [async_turn_on] sends the ["on"] service with no state argument and,
    with [success] the answer of the central system, leaves the cached state
    [_state] equal to [not success] for a pulse descriptor and to [success]
    for any other; nothing else of the entity changes. *)
Theorem async_turn_on_state sw cs log (service : PyVal) :
  _purpose sw !! "on" = Some service →
  let r := set_charger_state cs (cp_id sw) service None in
  ∃ e', async_turn_on (Build_Env sw cs log) = Ok (tt, e')
        ∧ _state (self e')
          = (if is_pulse (_purpose sw) then negb r.1 else r.1)
        ∧ same_entity sw (self e')
        ∧ central_system e' = r.2
        ∧ calls e' = (log ++ [SetChargerState (cp_id sw) service None])%list.
Proof.
  intros Hon r. eexists. split.
  - by apply async_turn_on_run.
  - by repeat split.
Qed.

(** The branch of [async_turn_off] taken when the descriptor has an ["off"]
    service: which call is made depends on whether it equals ["on"]. *)
Lemma async_turn_off_sent sw cs log (on : PyVal) :
  off_absent (_purpose sw) = false →
  _purpose sw !! "on" = Some on →
  let off := dict_get (_purpose sw) "off" in
  let state := if py_eq off on then Some false else None in
  let r := set_charger_state cs (cp_id sw) off state in
  async_turn_off (Build_Env sw cs log)
    = Ok (tt,
          Build_Env (with_state (negb r.1) sw) r.2
            (log ++ [SetChargerState (cp_id sw) off state])).
Proof.
  intros Hoff Hon off state r. unfold async_turn_off. run_method.
  rewrite Hoff, (dict_getitem_get _ _ Hoff). simpl.
  unfold dict_getitem at 1. rewrite Hon. fold off.
  subst r state. by destruct (py_eq off on).
Qed.

(** The branch taken when the descriptor has no ["off"] service. *)
Lemma async_turn_off_local sw cs log :
  off_absent (_purpose sw) = true →
  async_turn_off (Build_Env sw cs log)
    = Ok (tt, Build_Env (with_state (negb true) sw) cs log).
Proof.
  intros Hoff. unfold async_turn_off. run_method. by rewrite Hoff.
Qed.

(** C3: in each of its three branches [async_turn_off] leaves the cached
    state [_state] equal to [not success]: [success] is [True] when there is
    no ["off"] service, and the answer of the central system to the one call
    made otherwise. *)
Theorem async_turn_off_state sw cs log :
  let off := dict_get (_purpose sw) "off" in
  (off_absent (_purpose sw) = true →
     ∃ e', async_turn_off (Build_Env sw cs log) = Ok (tt, e')
           ∧ _state (self e') = negb true
           ∧ same_entity sw (self e')
           ∧ central_system e' = cs
           ∧ calls e' = log)
  ∧ (∀ on, off_absent (_purpose sw) = false →
       _purpose sw !! "on" = Some on → py_eq off on = true →
       let r := set_charger_state cs (cp_id sw) off (Some false) in
       ∃ e', async_turn_off (Build_Env sw cs log) = Ok (tt, e')
             ∧ _state (self e') = negb r.1
             ∧ same_entity sw (self e')
             ∧ central_system e' = r.2
             ∧ calls e'
               = (log ++ [SetChargerState (cp_id sw) off (Some false)])%list)
  ∧ (∀ on, off_absent (_purpose sw) = false →
       _purpose sw !! "on" = Some on → py_eq off on = false →
       let r := set_charger_state cs (cp_id sw) off None in
       ∃ e', async_turn_off (Build_Env sw cs log) = Ok (tt, e')
             ∧ _state (self e') = negb r.1
             ∧ same_entity sw (self e')
             ∧ central_system e' = r.2
             ∧ calls e' = (log ++ [SetChargerState (cp_id sw) off None])%list).
Proof.
  intros off. split; [| split].
  - intros Hoff. eexists. split; [by apply async_turn_off_local |].
    by repeat split.
  - intros on Hoff Hon Heq r.
    pose proof (async_turn_off_sent sw cs log on Hoff Hon) as Hrun.
    cbv zeta in Hrun. fold off in Hrun. rewrite Heq in Hrun.
    eexists. split; [exact Hrun |]. by repeat split.
  - intros on Hoff Hon Heq r.
    pose proof (async_turn_off_sent sw cs log on Hoff Hon) as Hrun.
    cbv zeta in Hrun. fold off in Hrun. rewrite Heq in Hrun.
    eexists. split; [exact Hrun |]. by repeat split.
Qed.

(** C5: without an ["off"] service, [async_turn_off] makes no call, leaves the
    central system as it was, and leaves the cached state [_state] false. *)
Theorem async_turn_off_without_off sw cs log :
  off_absent (_purpose sw) = true →
  ∃ e', async_turn_off (Build_Env sw cs log) = Ok (tt, e')
        ∧ _state (self e') = false
        ∧ same_entity sw (self e')
        ∧ central_system e' = cs
        ∧ calls e' = log.
Proof.
  intros Hoff. eexists. split; [by apply async_turn_off_local |].
  by repeat split.
Qed.

(** C6: when ["off"] names the same service as ["on"], [async_turn_off] makes
    exactly one call, for that service, with the state argument [False]; when
    it names another service, the one call is for the ["off"] service and has
    no state argument. *)
Theorem async_turn_off_dispatch sw cs log (on off : string) :
  _purpose sw !! "on" = Some (PyStr on) →
  _purpose sw !! "off" = Some (PyStr off) →
  (off = on →
     let r := set_charger_state cs (cp_id sw) (PyStr on) (Some false) in
     async_turn_off (Build_Env sw cs log)
       = Ok (tt,
             Build_Env (with_state (negb r.1) sw) r.2
               (log ++ [SetChargerState (cp_id sw) (PyStr on) (Some false)])))
  ∧ (off ≠ on →
     let r := set_charger_state cs (cp_id sw) (PyStr off) None in
     async_turn_off (Build_Env sw cs log)
       = Ok (tt,
             Build_Env (with_state (negb r.1) sw) r.2
               (log ++ [SetChargerState (cp_id sw) (PyStr off) None]))).
Proof.
  intros Hon Hoff.
  assert (Hget : dict_get (_purpose sw) "off" = PyStr off)
    by (unfold dict_get; by rewrite Hoff).
  assert (Habs : off_absent (_purpose sw) = false)
    by (unfold off_absent; by rewrite Hget).
  pose proof (async_turn_off_sent sw cs log (PyStr on) Habs Hon) as Hrun.
  cbv zeta in Hrun. rewrite Hget in Hrun. split.
  - intros -> r. by rewrite py_eq_refl in Hrun.
  - intros Hne r. by rewrite (py_eq_str_ne off on Hne) in Hrun.
Qed.
End Commands.

Section Construct.
Context {CS : Type} `{!CentralSystem CS} (c : Consts).

(** With a string under ["name"], the constructor returns an entity whose
    cached state is [bool(default)] when ["default"] is set and false when it
    is not. *)
Lemma init_ok (cp : string) (d : dict) (name : string) :
  d !! "name" = Some (PyStr name) →
  ∃ sw, __init__ c cp d = Ok sw
        ∧ cp_id sw = cp ∧ _purpose sw = d
        ∧ _state sw = (if default_driven d
                       then py_bool (dict_get d "default") else false).
Proof.
  intros Hn. unfold __init__.
  replace (dict_getitem d "name") with (Ok (PyStr name))
    by (unfold dict_getitem; by rewrite Hn).
  simpl. eexists. split; [reflexivity |]. simpl. repeat split.
  destruct (default_driven d) eqn:Hd; [| done].
  unfold default_driven in Hd. apply negb_true_iff in Hd.
  by rewrite (dict_getitem_get _ _ Hd).
Qed.

(** C7: a new entity caches the descriptor's default when there is one and
    false when there is none; so, for a descriptor without a metric key whose
    default is true, [is_on] returns true before any command is sent. *)
Theorem init_state (cp : string) (d : dict) (name : string) :
  d !! "name" = Some (PyStr name) →
  ∃ sw, __init__ c cp d = Ok sw
        ∧ _purpose sw = d
        ∧ (∀ b : bool, d !! "default" = Some (PyBool b) → _state sw = b)
        ∧ (default_driven d = false → _state sw = false)
        ∧ (d !! "default" = Some (PyBool true) → metric_driven d = false →
           ∀ (cs : CS) log,
             is_on (Build_Env sw cs log) = Ok (true, Build_Env sw cs log)).
Proof.
  intros Hn. destruct (init_ok cp d name Hn) as (sw & Hi & _ & Hp & Hs).
  assert (Hb : ∀ b : bool, d !! "default" = Some (PyBool b) → _state sw = b).
  { intros b Hd. rewrite Hs. unfold default_driven, dict_get. by rewrite Hd. }
  exists sw. repeat split; [done | done | done | | ].
  - intros Hd. by rewrite Hs, Hd.
  - intros Hd Hm cs log. rewrite <- Hp in Hm.
    unfold is_on. run_method. rewrite Hm. simpl. by rewrite (Hb true Hd).
Qed.
End Construct.

(** The four entities of a charge point, as the loop of [async_setup_entry]
    creates them: only Availability starts on. *)
Lemma make_entities_states (c : Consts) (cp : string) :
  ∃ sws, make_entities c (PyStr cp) (descriptors c) = Ok sws
         ∧ _purpose <$> sws = descriptors c
         ∧ _state <$> sws = [false; true; false; false].
Proof. eexists. split; [reflexivity |]. by vm_compute. Qed.

(** ** The modes of the four descriptors *)

(** C4 (as amended): Charge_Control (metric), Reset (pulse) and Unlock (pulse)
    each declare exactly one of the three modes; Availability declares two, a
    metric key and a default, and no pulse; no descriptor combines pulse with
    either of the other two. *)
Theorem descriptor_modes (c : Consts) :
  mode_count (SWITCH_CHARGE c) = 1
  ∧ mode_count (SWITCH_AVAILABILITY c) = 2
  ∧ mode_count SWITCH_RESET = 1
  ∧ mode_count SWITCH_UNLOCK = 1
  ∧ (metric_driven (SWITCH_CHARGE c) = true
     ∧ metric_driven (SWITCH_AVAILABILITY c) = true
     ∧ default_driven (SWITCH_AVAILABILITY c) = true
     ∧ is_pulse (SWITCH_AVAILABILITY c) = false
     ∧ is_pulse SWITCH_RESET = true
     ∧ is_pulse SWITCH_UNLOCK = true)
  ∧ (∀ d, d ∈ descriptors c → is_pulse d = true → mode_count d = 1).
Proof.
  repeat split; try by vm_compute.
  intros d. unfold descriptors. rewrite !elem_of_cons, elem_of_nil.
  intros [->|[->|[->|[->|[]]]]]; by vm_compute.
Qed.

(** C4 (as stated) fails whatever the imported constants are: Availability
    declares two modes. *)
Lemma exactly_one_mode_fails :
  ¬ ∃ c : Consts, ∀ d, d ∈ descriptors c → mode_count d = 1.
Proof.
  intros [c Hall].
  assert (Hin : SWITCH_AVAILABILITY c ∈ descriptors c)
    by (unfold descriptors; rewrite !elem_of_cons; auto).
  specialize (Hall _ Hin). vm_compute in Hall. discriminate.
Qed.

(** ** Runs on concrete inputs *)

(** The four entities of charge point ["CP1"]. *)
Definition entity (purpose : dict) (name : string) (state : bool)
    : ChargePointSwitch :=
  {| cp_id := "CP1"; _state := state; _purpose := purpose;
     _id := "switch.ocpp.CP1." ++ name;
     _name := "CP1." ++ name;
     entity_id := "switch.CP1_" ++ name |}.

Definition charge_sw : ChargePointSwitch :=
  entity (SWITCH_CHARGE ocpp16) "Charge_Control" false.
Definition availability_sw : ChargePointSwitch :=
  entity (SWITCH_AVAILABILITY ocpp16) "Availability" true.
Definition reset_sw : ChargePointSwitch :=
  entity SWITCH_RESET "Reset" false.
Definition unlock_sw : ChargePointSwitch :=
  entity SWITCH_UNLOCK "Unlock" false.

(** A descriptor of a plain toggle that starts on: no metric, no pulse. *)
Definition toggle_on : dict :=
  dict_of [ ("name", PyStr "Lamp");
            ("on", PyStr "service_lamp");
            ("default", PyBool true) ].

(** A descriptor with a metric key and no condition. *)
Definition metric_only : dict :=
  dict_of [ ("name", PyStr "Gauge");
            ("on", PyStr "service_gauge");
            ("metric", PyStr "Status") ].

(** A central system that holds the status of ["CP1"] and answers the next
    commands as scripted. *)
Definition store (status : string) (script : list bool) : Scripted :=
  {| readings := {[ ("CP1", "Status") := PyStr status ]}; answers := script |}.

(** A central system that holds no reading at all. *)
Definition empty_store (script : list bool) : Scripted :=
  {| readings := ∅; answers := script |}.

Example setup_CP1 :
  make_entities ocpp16 (PyStr "CP1") (descriptors ocpp16)
  = Ok [charge_sw; availability_sw; reset_sw; unlock_sw].
Proof. reflexivity. Qed.

Example charge_on_while_charging :
  is_on (Build_Env charge_sw (store "Charging" []) [])
  = Ok (true, Build_Env (with_state true charge_sw) (store "Charging" [])
                [GetMetric "CP1" (PyStr "Status")]).
Proof. reflexivity. Qed.

Example availability_off_while_charging :
  is_on (Build_Env availability_sw (store "Charging" []) [])
  = Ok (false, Build_Env (with_state false availability_sw)
                 (store "Charging" []) [GetMetric "CP1" (PyStr "Status")]).
Proof. reflexivity. Qed.

Example reset_accepted :
  async_turn_on (Build_Env reset_sw (store "Available" [true]) [])
  = Ok (tt, Build_Env (with_state false reset_sw) (store "Available" [])
              [SetChargerState "CP1" (PyStr "service_reset") None]).
Proof. reflexivity. Qed.

Example reset_refused :
  async_turn_on (Build_Env reset_sw (store "Available" [false]) [])
  = Ok (tt, Build_Env (with_state true reset_sw) (store "Available" [])
              [SetChargerState "CP1" (PyStr "service_reset") None]).
Proof. reflexivity. Qed.

Example gauge_raises :
  is_on (Build_Env (entity metric_only "Gauge" false) (store "Charging" []) [])
  = Raise (KeyError "condition").
Proof. reflexivity. Qed.

(** ** The theorems at concrete inputs *)

(** Charge_Control reads on while the charge point reports "Charging", also
    when its cached state was on before. *)
Lemma is_on_metric_driven_witness :
  is_on (Build_Env charge_sw (store "Charging" []) [])
    = Ok (true, Build_Env (with_state true charge_sw) (store "Charging" [])
                  [GetMetric "CP1" (PyStr "Status")])
  ∧ ∀ prior : bool,
      is_on (Build_Env (with_state prior charge_sw) (store "Charging" []) [])
        = Ok (true, Build_Env (with_state true charge_sw) (store "Charging" [])
                      [GetMetric "CP1" (PyStr "Status")]).
Proof.
  exact (is_on_metric_driven charge_sw (store "Charging" []) []
           (PyStr "Charging") eq_refl eq_refl).
Defined.

(** Reset (pulse) ends off once accepted and on when refused; Charge_Control
    (no pulse) ends on once accepted. *)
Lemma async_turn_on_state_witness :
  (∃ e', async_turn_on (Build_Env reset_sw (store "Available" [true]) [])
           = Ok (tt, e')
         ∧ _state (self e') = false
         ∧ same_entity reset_sw (self e')
         ∧ central_system e' = store "Available" []
         ∧ calls e' = [SetChargerState "CP1" (PyStr "service_reset") None])
  ∧ (∃ e', async_turn_on (Build_Env reset_sw (store "Available" [false]) [])
             = Ok (tt, e')
           ∧ _state (self e') = true
           ∧ same_entity reset_sw (self e')
           ∧ central_system e' = store "Available" []
           ∧ calls e' = [SetChargerState "CP1" (PyStr "service_reset") None])
  ∧ (∃ e', async_turn_on (Build_Env charge_sw (store "Available" [true]) [])
             = Ok (tt, e')
           ∧ _state (self e') = true
           ∧ same_entity charge_sw (self e')
           ∧ central_system e' = store "Available" []
           ∧ calls e'
             = [SetChargerState "CP1" (PyStr "service_charge_start") None]).
Proof.
  split; [| split].
  - exact (async_turn_on_state reset_sw (store "Available" [true]) []
             (PyStr "service_reset") eq_refl).
  - exact (async_turn_on_state reset_sw (store "Available" [false]) []
             (PyStr "service_reset") eq_refl).
  - exact (async_turn_on_state charge_sw (store "Available" [true]) []
             (PyStr "service_charge_start") eq_refl).
Defined.

(** The three branches of [async_turn_off], on Unlock, Availability and
    Charge_Control, each starting on: accepted ends off, refused ends on. *)
Lemma async_turn_off_state_witness :
  (∃ e', async_turn_off
           (Build_Env (entity SWITCH_UNLOCK "Unlock" true) (store "Available" [true]) [])
           = Ok (tt, e')
         ∧ _state (self e') = false
         ∧ same_entity (entity SWITCH_UNLOCK "Unlock" true) (self e')
         ∧ central_system e' = store "Available" [true]
         ∧ calls e' = [])
  ∧ (∃ e', async_turn_off
             (Build_Env availability_sw (store "Available" [true]) [])
             = Ok (tt, e')
           ∧ _state (self e') = false
           ∧ same_entity availability_sw (self e')
           ∧ central_system e' = store "Available" []
           ∧ calls e'
             = [SetChargerState "CP1" (PyStr "service_availability")
                  (Some false)])
  ∧ (∃ e', async_turn_off
             (Build_Env (entity (SWITCH_CHARGE ocpp16) "Charge_Control" true) (store "Charging" [false]) [])
             = Ok (tt, e')
           ∧ _state (self e') = true
           ∧ same_entity (entity (SWITCH_CHARGE ocpp16) "Charge_Control" true) (self e')
           ∧ central_system e' = store "Charging" []
           ∧ calls e'
             = [SetChargerState "CP1" (PyStr "service_charge_stop") None]).
Proof.
  split; [| split].
  - exact (proj1 (async_turn_off_state (entity SWITCH_UNLOCK "Unlock" true)
                    (store "Available" [true]) []) eq_refl).
  - exact (proj1 (proj2 (async_turn_off_state availability_sw
                           (store "Available" [true]) []))
             (PyStr "service_availability") eq_refl eq_refl eq_refl).
  - exact (proj2 (proj2 (async_turn_off_state (entity (SWITCH_CHARGE ocpp16) "Charge_Control" true)
                           (store "Charging" [false]) []))
             (PyStr "service_charge_start") eq_refl eq_refl eq_refl).
Defined.

(** Reset has no ["off"] service: turning it off while it reads on sends
    nothing and leaves it off. *)
Lemma async_turn_off_without_off_witness :
  ∃ e', async_turn_off
          (Build_Env (entity SWITCH_RESET "Reset" true) (store "Available" [true]) [])
          = Ok (tt, e')
        ∧ _state (self e') = false
        ∧ same_entity (entity SWITCH_RESET "Reset" true) (self e')
        ∧ central_system e' = store "Available" [true]
        ∧ calls e' = [].
Proof.
  exact (async_turn_off_without_off (entity SWITCH_RESET "Reset" true)
           (store "Available" [true]) [] eq_refl).
Defined.

(** Availability turns off through its ["on"] service with [False];
    Charge_Control through its own ["off"] service. *)
Lemma async_turn_off_dispatch_witness :
  async_turn_off (Build_Env availability_sw (store "Available" [false]) [])
    = Ok (tt, Build_Env (with_state true availability_sw) (store "Available" [])
                [SetChargerState "CP1" (PyStr "service_availability") (Some false)])
  ∧ async_turn_off (Build_Env charge_sw (store "Charging" [true]) [])
    = Ok (tt, Build_Env (with_state false charge_sw) (store "Charging" [])
                [SetChargerState "CP1" (PyStr "service_charge_stop") None]).
Proof.
  split.
  - exact (proj1 (async_turn_off_dispatch availability_sw
                    (store "Available" [false]) []
                    "service_availability" "service_availability"
                    eq_refl eq_refl) eq_refl).
  - refine (proj2 (async_turn_off_dispatch charge_sw
                     (store "Charging" [true]) []
                     "service_charge_start" "service_charge_stop"
                     eq_refl eq_refl) _).
    discriminate.
Defined.

(** A toggle with default true is on as soon as it is created. *)
Lemma init_state_witness :
  ∃ sw, __init__ ocpp16 "CP1" toggle_on = Ok sw
        ∧ _purpose sw = toggle_on
        ∧ (∀ b : bool, toggle_on !! "default" = Some (PyBool b) → _state sw = b)
        ∧ (default_driven toggle_on = false → _state sw = false)
        ∧ (toggle_on !! "default" = Some (PyBool true) →
           metric_driven toggle_on = false →
           ∀ (cs : Scripted) log,
             is_on (Build_Env sw cs log) = Ok (true, Build_Env sw cs log)).
Proof.
  exact (init_state ocpp16 "CP1" toggle_on "Lamp" eq_refl).
Defined.

(** With no reading for the charge point the scripted store answers [None],
    and Availability reads off. *)
Lemma is_on_missing_metric_witness :
  is_on (Build_Env availability_sw (empty_store []) [])
    = Ok (false, Build_Env (with_state false availability_sw) (empty_store [])
                   [GetMetric "CP1" (PyStr "Status")]).
Proof.
  exact (is_on_missing_metric availability_sw (empty_store []) []
           (PyStr "Available") PyNone eq_refl eq_refl eq_refl eq_refl).
Defined.

(** Reset has no metric key: reading it changes nothing. *)
Lemma is_on_cached_witness :
  is_on (Build_Env (with_state true reset_sw) (store "Charging" [true]) [])
    = Ok (true, Build_Env (with_state true reset_sw) (store "Charging" [true]) []).
Proof.
  exact (is_on_cached (with_state true reset_sw) (store "Charging" [true]) []
           eq_refl).
Defined.

(** Charge_Control returns; a descriptor with a metric key and no condition
    raises. *)
Lemma is_on_total_iff_condition_witness :
  (∃ r e, is_on (Build_Env charge_sw (store "Charging" []) []) = Ok (r, e))
  ∧ is_on (Build_Env (entity metric_only "Gauge" false) (store "Charging" []) [])
    = Raise (KeyError "condition").
Proof.
  split.
  - refine (proj1 (proj1 (is_on_total_iff_condition ocpp16) charge_sw
                     (store "Charging" []) [] eq_refl) _).
    by eexists.
  - exact (proj2 (proj1 (is_on_total_iff_condition ocpp16)
                    (entity metric_only "Gauge" false)
                    (store "Charging" []) [] eq_refl) eq_refl).
Defined.

(** * The rest of the entity *)

Local Open Scope list_scope.
Local Open Scope nat_scope.

(** ** The remaining properties and [update] *)

Section Properties.
Context {CS : Type} `{!CentralSystem CS}.

(** The property [current_power_w]. *)
Definition current_power_w : M CS PyVal :=
  cp ← get_self cp_id;
  call_get_metric cp (PyStr "Power.Active.Import").

(** The property [name]. *)
Definition name : M CS string := get_self _name.

(** The property [extra_state_attributes]. *)
Definition extra_state_attributes (c : Consts) : M CS dict :=
  uid ← unique_id;
  mret (dict_of [ ("unique_id", PyStr uid);
                  ("integration", PyStr (DOMAIN c)) ]).

(** [update]: the body is [pass]. *)
Definition update : M CS unit := mret tt.
End Properties.

(** ** Sequences of calls *)

(** The host reads the properties and sends the commands of an entity in any
    order; a history is the list of the members it used, oldest first. *)
Inductive Member : Type :=
  | IsOn
  | AsyncTurnOn
  | AsyncTurnOff
  | CurrentPowerW
  | Available
  | UniqueId
  | Name
  | Update.

(** The members that only read. *)
Definition reads_only (m : Member) : bool :=
  match m with
  | AsyncTurnOn | AsyncTurnOff => false
  | _ => true
  end.

(** The charge point a call is about. *)
Definition call_cp (k : Call) : string :=
  match k with
  | GetMetric cp _ => cp
  | SetChargerState cp _ _ => cp
  end.

Definition is_command (k : Call) : bool :=
  match k with
  | GetMetric _ _ => false
  | SetChargerState _ _ _ => true
  end.

Section Histories.
Context {CS : Type} `{!CentralSystem CS}.

(** Use one member and drop what it returns. *)
Definition use (m : Member) : M CS unit :=
  match m with
  | IsOn => is_on ;; mret tt
  | AsyncTurnOn => async_turn_on
  | AsyncTurnOff => async_turn_off
  | CurrentPowerW => current_power_w ;; mret tt
  | Available => available ;; mret tt
  | UniqueId => unique_id ;; mret tt
  | Name => name ;; mret tt
  | Update => update
  end.

Fixpoint replay (history : list Member) : M CS unit :=
  match history with
  | [] => mret tt
  | m :: rest => use m ;; replay rest
  end.
End Histories.

From Stdlib Require Import Ascii.

(** The characters of a string, for reasoning about the joined identifiers. *)
Abbreviation chars := Stdlib.Strings.String.list_ascii_of_string.

(** A name that can be split off again after a join with ["."]. *)
Definition dot_free (s : string) : Prop := "."%char ∉ chars s.

Global Instance dot_free_dec (s : string) : Decision (dot_free s).
Proof. unfold dot_free. apply _. Defined.

(** ** What every member leaves alone *)

Section HistoryFacts.
Context {CS : Type} `{!CentralSystem CS}.
Implicit Types (e : Env CS) (m : Member) (history : list Member).

(** [e'] differs from [e] by the cached state at most, and by at most [n]
    further calls, all about the entity's own charge point. *)
Definition grown (n : nat) (e e' : Env CS) : Prop :=
  (∃ b, self e' = with_state b (self e))
  ∧ ∃ made : list Call,
      calls e' = (calls e ++ made)%list
      ∧ (length made ≤ n)%nat
            ∧ Forall (λ k, call_cp k = cp_id (self e)) made.

Lemma grown_refl e : grown 0 e e.
Proof.
  split.
  - exists (_state (self e)). by rewrite with_state_same.
  - exists []. by rewrite app_nil_r.
Qed.

Lemma grown_trans (n k : nat) e1 e2 e3 :
  grown n e1 e2 → grown k e2 e3 → grown (n + k) e1 e3.
Proof.
  intros [[b1 Hs1] (m1 & Hc1 & Hl1 & Hf1)] [[b2 Hs2] (m2 & Hc2 & Hl2 & Hf2)].
  split.
  - exists b2. by rewrite Hs2, Hs1.
  - exists (m1 ++ m2). rewrite Hc2, Hc1, length_app, (assoc_L (++)).
    split; [done |]. split; [lia |].
    apply Forall_app. split; [done |].
    rewrite Hs1 in Hf2. exact Hf2.
Qed.

(** What one call of [call_get_metric] or [call_set_charger_state] adds. *)
Ltac one_call :=
  split;
  [ first [ by eexists
          | eexists; symmetry; apply with_state_same ]
  | eexists; split; [reflexivity |];
    split; [simpl; lia |];
    repeat constructor ].

Ltac no_call :=
  split;
  [ first [ by eexists
          | eexists; symmetry; apply with_state_same ]
  | exists []; split; [by rewrite app_nil_r |];
    split; [simpl; lia | constructor] ].

Lemma use_grown m e e' : use m e = Ok (tt, e') → grown 1 e e'.
Proof.
  destruct e as [sw cs log].
  destruct m; unfold use, is_on, async_turn_on, async_turn_off,
    current_power_w, available, unique_id, name, update;
    run_method; intros Hrun;
    repeat (case_match; simplify_eq; simpl in * ); simplify_eq;
    first [ one_call | no_call ].
Qed.

Lemma replay_grown history :
  ∀ e e', replay history e = Ok (tt, e') → grown (length history) e e'.
Proof.
  induction history as [|m rest IH]; intros e e' Hrun.
  - injection Hrun as <-. apply grown_refl.
  - simpl in Hrun. unfold mbind, M_bind in Hrun.
    destruct (use m e) as [[[] e1]|] eqn:Hm; [| discriminate].
    apply (grown_trans 1 (length rest) e e1 e'); eauto using use_grown.
Qed.

(** One reading member sends no command and leaves the central system as it
    was. *)
Lemma use_reads m e e' :
  reads_only m = true →
  use m e = Ok (tt, e') →
  central_system e' = central_system e
  ∧ ∃ made : list Call,
      calls e' = calls e ++ made ∧ Forall (λ k, is_command k = false) made.
Proof.
  destruct e as [sw cs log].
  destruct m; try discriminate; intros _;
    unfold use, is_on, current_power_w, available, unique_id, name, update;
    run_method; intros Hrun;
    repeat (case_match; simplify_eq; simpl in * ); simplify_eq;
    (split; [reflexivity |]);
    first [ by eexists; split; [reflexivity | repeat constructor]
          | exists []; split; [by rewrite app_nil_r | constructor] ].
Qed.

(** X1: whatever members of an entity are used, in whatever order, as long as
    none raises: the charge point, the descriptor, the unique id, the name and
    the entity id stay what they were (only the cached state can change), at
    most one call per member used reaches the central system, and every call
    is about the entity's own charge point. *)
Theorem history_frame history e e' :
  replay history e = Ok (tt, e') →
  (cp_id (self e') = cp_id (self e)
   ∧ _purpose (self e') = _purpose (self e)
   ∧ _id (self e') = _id (self e)
   ∧ _name (self e') = _name (self e)
   ∧ entity_id (self e') = entity_id (self e))
  ∧ ∃ made : list Call,
      calls e' = calls e ++ made
      ∧ length made ≤ length history
      ∧ Forall (λ k, call_cp k = cp_id (self e)) made.
Proof.
  intros Hrun. destruct (replay_grown _ _ _ Hrun) as [[b Hb] Hmade].
  split; [by rewrite Hb | exact Hmade].
Qed.

(** The only reading member that can raise is [is_on], at the ["condition"]
    subscript of a descriptor with a metric key. *)
Lemma use_reads_raise m e (x : PyExn) :
  reads_only m = true →
  use m e = Raise x →
  x = KeyError "condition"
  ∧ metric_driven (_purpose (self e)) = true
  ∧ _purpose (self e) !! "condition" = None.
Proof.
  destruct e as [sw cs log].
  destruct m; try discriminate; intros _;
    unfold use, is_on, current_power_w, available, unique_id, name, update;
    run_method; try discriminate.
  destruct (metric_driven (_purpose sw)) eqn:Hm; simpl; [| discriminate].
  rewrite (metric_driven_getitem _ Hm). simpl.
  unfold dict_getitem.
  destruct (_purpose sw !! "condition") eqn:Hc; simpl.
  - by destruct (py_eq _ _).
  - intros [= <-]. done.
Qed.

(** X2: a history of reading members only ([is_on], [current_power_w],
    [available], [unique_id], [name], [update]) that does not raise sends no
    command: the central system is unchanged and every call logged is a
    [get_metric].  Such a history raises only [KeyError "condition"], and only
    on a descriptor with a metric key and no condition; on any other
    descriptor it does not raise. *)
Theorem reading_sends_no_command history :
  ∀ e,
    forallb reads_only history = true →
    (∀ e', replay history e = Ok (tt, e') →
       central_system e' = central_system e
       ∧ ∃ made : list Call,
           calls e' = calls e ++ made
           ∧ Forall (λ k, is_command k = false) made)
    ∧ (∀ x, replay history e = Raise x →
         x = KeyError "condition"
         ∧ metric_driven (_purpose (self e)) = true
         ∧ _purpose (self e) !! "condition" = None)
    ∧ (metric_driven (_purpose (self e)) = false
       ∨ is_Some (_purpose (self e) !! "condition") →
       ∃ e', replay history e = Ok (tt, e')).
Proof.
  assert (Hraise : ∀ history e x,
            forallb reads_only history = true →
            replay history e = Raise x →
            x = KeyError "condition"
            ∧ metric_driven (_purpose (self e)) = true
            ∧ _purpose (self e) !! "condition" = None).
  { clear history. induction history as [|m rest IH]; intros e x Hall Hrun.
    - discriminate.
    - simpl in Hall. apply andb_true_iff in Hall as [Hm Hrest].
      simpl in Hrun. unfold mbind, M_bind in Hrun.
      destruct (use m e) as [[[] e1]|y] eqn:Huse.
      + destruct (use_grown m e e1 Huse) as [[b Hb] _].
        destruct (IH e1 x Hrest Hrun) as (Hx & Hmd & Hc).
        rewrite Hb in Hmd, Hc. done.
      + injection Hrun as <-. by apply (use_reads_raise m e y). }
  induction history as [|m rest IH]; intros e Hall.
  - split; [| split].
    + intros e' Hrun. injection Hrun as <-. split; [done |].
      exists []. by rewrite app_nil_r.
    + intros x Hrun. discriminate.
    + intros _. by eexists.
  - split; [| split].
    + intros e' Hrun.
      simpl in Hall. apply andb_true_iff in Hall as [Hm Hrest].
      simpl in Hrun. unfold mbind, M_bind in Hrun.
      destruct (use m e) as [[[] e1]|] eqn:Huse; [| discriminate].
      destruct (use_reads m e e1 Hm Huse) as (Hcs1 & made1 & Hc1 & Hf1).
      destruct (IH e1 Hrest) as [Hok _].
      destruct (Hok e' Hrun) as (Hcs2 & made2 & Hc2 & Hf2).
      split; [congruence |].
      exists (made1 ++ made2). rewrite Hc2, Hc1, (assoc_L (++)).
      split; [done |]. by apply Forall_app.
    + intros x Hrun. by apply (Hraise (m :: rest)).
    + intros Hdef.
      destruct (replay (m :: rest) e) as [[[] e']|x] eqn:Hrun; [by eexists |].
      destruct (Hraise _ _ _ Hall Hrun) as (_ & Hmd & Hc).
      destruct Hdef as [Hdef|[v Hdef]]; congruence.
Qed.

(** X3: a metric-driven entity reads the metric from its construction on and
    through any history: whatever the descriptor's default and whatever the
    commands sent and their answers, [is_on] returns whether the current
    reading equals the condition. *)
Theorem is_on_metric_after_history
    (c : Consts) (cp : string) (d : dict) (cond : PyVal) sw cs log history e' :
  __init__ c cp d = Ok sw →
  metric_driven d = true →
  d !! "condition" = Some cond →
  replay history (Build_Env sw cs log) = Ok (tt, e') →
  ∃ e'', is_on e'
         = Ok (py_eq (get_metric (central_system e') cp (dict_get d "metric"))
                 cond, e'').
Proof.
  intros Hinit Hm Hc Hrun.
  assert (Hsw : cp_id sw = cp ∧ _purpose sw = d).
  { unfold __init__ in Hinit.
    repeat (case_match; simplify_eq); by simplify_eq. }
  destruct Hsw as [Hcp Hp].
  destruct (replay_grown _ _ _ Hrun) as [[b Hb] _]. simpl in Hb.
  destruct e' as [sw' cs' log']. simpl in *. subst sw'.
  eexists. rewrite (is_on_metric_run (with_state b sw) cs' log' cond);
    simpl; rewrite ?Hp, ?Hcp; done.
Qed.
End HistoryFacts.

(** ** Commands on a descriptor without ["on"] *)

Section MissingOn.
Context {CS : Type} `{!CentralSystem CS}.
Implicit Types (sw : ChargePointSwitch) (cs : CS) (log : list Call).

(** X4: on a descriptor without an ["on"] service, [async_turn_on] raises
    [KeyError "on"], and so does [async_turn_off] when there is an ["off"]
    service (it compares the two); without an ["off"] service
    [async_turn_off] still returns and caches false. *)
Theorem commands_without_on sw cs log :
  _purpose sw !! "on" = None →
  async_turn_on (Build_Env sw cs log) = Raise (KeyError "on")
  ∧ async_turn_off (Build_Env sw cs log)
    = (if off_absent (_purpose sw)
       then Ok (tt, Build_Env (with_state false sw) cs log)
       else Raise (KeyError "on")).
Proof.
  intros Hon. split.
  - unfold async_turn_on. run_method. unfold dict_getitem. rewrite Hon.
    by destruct (is_pulse (_purpose sw)).
  - unfold async_turn_off. run_method.
    destruct (off_absent (_purpose sw)) eqn:Hoff; [done |].
    rewrite (dict_getitem_get _ _ Hoff). simpl.
    unfold dict_getitem. by rewrite Hon.
Qed.
End MissingOn.

(** ** Construction: errors and identifiers *)

(** The identifiers the constructor builds from a string name. *)
Lemma init_ids (c : Consts) (cp : string) (d : dict) (n : string) :
  d !! "name" = Some (PyStr n) →
  ∃ sw, __init__ c cp d = Ok sw
        ∧ cp_id sw = cp
        ∧ _purpose sw = d
        ∧ _id sw = ("switch." ++ DOMAIN c ++ "." ++ cp ++ "." ++ n)%string
        ∧ _name sw = (cp ++ "." ++ n)%string
        ∧ entity_id sw = ("switch." ++ cp ++ "_" ++ n)%string.
Proof.
  intros Hn. unfold __init__.
  replace (dict_getitem d "name") with (Ok (PyStr n))
    by (unfold dict_getitem; by rewrite Hn).
  simpl. eexists. by repeat split.
Qed.

(** X5: the constructor returns an entity exactly when the descriptor holds a
    string under ["name"]: without the key it raises [KeyError "name"], with
    another value there [TypeError] (from the join), and with a string [n]
    the unique id is [switch.DOMAIN.cp.n], the name [cp.n] and the entity id
    [switch.cp_n]. *)
Theorem init_name (c : Consts) (cp : string) (d : dict) :
  (d !! "name" = None → __init__ c cp d = Raise (KeyError "name"))
  ∧ (∀ v, d !! "name" = Some v → (∀ s, v ≠ PyStr s) →
       __init__ c cp d = Raise TypeError)
  ∧ (∀ n, d !! "name" = Some (PyStr n) →
       ∃ sw, __init__ c cp d = Ok sw
             ∧ cp_id sw = cp
             ∧ _purpose sw = d
             ∧ _id sw = ("switch." ++ DOMAIN c ++ "." ++ cp ++ "." ++ n)%string
             ∧ _name sw = (cp ++ "." ++ n)%string
             ∧ entity_id sw = ("switch." ++ cp ++ "_" ++ n)%string).
Proof.
  split; [| split].
  - intros Hn. unfold __init__, dict_getitem. by rewrite Hn.
  - intros v Hn Hv. unfold __init__.
    replace (dict_getitem d "name") with (Ok v)
      by (unfold dict_getitem; by rewrite Hn).
    destruct v as [| | |s]; [reflexivity .. | by destruct (Hv s)].
  - intros n Hn. by apply init_ids.
Qed.

(** ** Identifiers do not collide *)

Lemma chars_app (a b : string) : chars (a ++ b)%string = chars a ++ chars b.
Proof. induction a as [|ch a IH]; simpl; [done | by rewrite IH]. Qed.

Lemma chars_inj (a b : string) : chars a = chars b → a = b.
Proof.
  intros Heq.
  rewrite <- (Stdlib.Strings.String.string_of_list_ascii_of_string a),
          <- (Stdlib.Strings.String.string_of_list_ascii_of_string b).
  by rewrite Heq.
Qed.

Lemma join_same_tail (a b x : string) :
  (a ++ x)%string = (b ++ x)%string → a = b.
Proof.
  intros Heq. apply chars_inj.
  apply (f_equal chars) in Heq. rewrite !chars_app in Heq.
  by apply app_inv_tail in Heq.
Qed.

(** Two joins are equal only if one tail ends with the other. *)
Lemma join_tails (a b x y : string) :
  (a ++ x)%string = (b ++ y)%string →
  chars x `suffix_of` chars y ∨ chars y `suffix_of` chars x.
Proof.
  intros Heq. apply (f_equal chars) in Heq. rewrite !chars_app in Heq.
  apply app_eq_inv in Heq as [(k & _ & Hk)|(k & _ & Hk)].
  - left. by exists k.
  - right. by exists k.
Qed.

Lemma dot_tail_suffix (n1 n2 : string) :
  dot_free n2 →
  chars ("." ++ n1)%string `suffix_of` chars ("." ++ n2)%string → n1 = n2.
Proof.
  intros Hfree [k Hk]. rewrite !chars_app in Hk. simpl in Hk.
  destruct k as [|ch k].
  - injection Hk as Hk. by apply chars_inj.
  - injection Hk as _ Hk. destruct Hfree. rewrite Hk.
    apply elem_of_app. right. apply elem_of_cons. by left.
Qed.

Lemma dot_join_inj (a b n1 n2 : string) :
  dot_free n1 → dot_free n2 →
  (a ++ "." ++ n1)%string = (b ++ "." ++ n2)%string → a = b ∧ n1 = n2.
Proof.
  intros H1 H2 Heq.
  assert (Hn : n1 = n2).
  { destruct (join_tails _ _ _ _ Heq) as [Hs|Hs].
    - by apply dot_tail_suffix.
    - symmetry. by apply dot_tail_suffix. }
  subst n2. split; [| done]. by apply join_same_tail in Heq.
Qed.

(** X6: the unique id tells entities apart as long as descriptor names hold
    no ["."]: two entities with the same unique id have the same charge point
    and the same descriptor name. *)
Theorem unique_id_injective
    (c : Consts) (cp1 cp2 : string) (d1 d2 : dict) (n1 n2 : string)
    (sw1 sw2 : ChargePointSwitch) :
  d1 !! "name" = Some (PyStr n1) → dot_free n1 →
  d2 !! "name" = Some (PyStr n2) → dot_free n2 →
  __init__ c cp1 d1 = Ok sw1 →
  __init__ c cp2 d2 = Ok sw2 →
  _id sw1 = _id sw2 →
  cp1 = cp2 ∧ n1 = n2.
Proof.
  intros Hn1 Hf1 Hn2 Hf2 Hi1 Hi2 Heq.
  destruct (init_ids c cp1 d1 n1 Hn1) as (s1 & Hs1 & _ & _ & Hid1 & _).
  destruct (init_ids c cp2 d2 n2 Hn2) as (s2 & Hs2 & _ & _ & Hid2 & _).
  assert (s1 = sw1) by congruence. assert (s2 = sw2) by congruence.
  subst s1 s2. rewrite Hid1, Hid2 in Heq.
  apply (inj (String.app "switch.")) in Heq.
  apply (inj (String.app (DOMAIN c))) in Heq.
  apply (inj (String.app ".")) in Heq.
  by apply dot_join_inj.
Qed.

Lemma str_app_assoc (a b x : string) :
  ((a ++ b) ++ x)%string = (a ++ (b ++ x))%string.
Proof. apply chars_inj. rewrite !chars_app. by rewrite (assoc_L (++)). Qed.

(** X7: the join is ambiguous as soon as a separator occurs inside a part:
    the entity named [n] of charge point [a.b] and the entity named [b.n] of
    charge point [a] have the same unique id and the same name, and likewise
    the same entity id with ["_"] in place of ["."]. *)
Theorem identifiers_ambiguous
    (c : Consts) (a b n : string) (sep : string) (d1 d2 : dict)
    (sw1 sw2 : ChargePointSwitch) :
  sep = "."%string ∨ sep = "_"%string →
  d1 !! "name" = Some (PyStr n) →
  d2 !! "name" = Some (PyStr (b ++ sep ++ n)%string) →
  __init__ c (a ++ sep ++ b)%string d1 = Ok sw1 →
  __init__ c a d2 = Ok sw2 →
  cp_id sw1 ≠ cp_id sw2
  ∧ (sep = "."%string → _id sw1 = _id sw2 ∧ _name sw1 = _name sw2)
  ∧ (sep = "_"%string → entity_id sw1 = entity_id sw2).
Proof.
  intros Hsep Hn1 Hn2 Hi1 Hi2.
  destruct (init_ids c (a ++ sep ++ b)%string d1 _ Hn1)
    as (s1 & Hs1 & Hc1 & _ & Hid1 & Hnm1 & He1).
  destruct (init_ids c a d2 _ Hn2)
    as (s2 & Hs2 & Hc2 & _ & Hid2 & Hnm2 & He2).
  assert (s1 = sw1) by congruence. assert (s2 = sw2) by congruence.
  subst s1 s2. split; [| split].
  - rewrite Hc1, Hc2. intros Heq.
    apply (f_equal (λ s, length (chars s))) in Heq.
    rewrite !chars_app, !length_app in Heq.
    destruct Hsep as [-> | ->]; simpl in Heq; lia.
  - intros ->. rewrite Hid1, Hid2, Hnm1, Hnm2.
    by rewrite <- !str_app_assoc.
  - intros ->. rewrite He1, He2. by rewrite <- !str_app_assoc.
Qed.

(** The names of the four descriptors. *)
Definition descriptor_names : list string :=
  ["Charge_Control"; "Availability"; "Reset"; "Unlock"]%string.

Lemma descriptor_name (c : Consts) (d : dict) :
  d ∈ descriptors c →
  ∃ n, d !! "name" = Some (PyStr n)
       ∧ n ∈ descriptor_names
       ∧ ∀ d', d' ∈ descriptors c → d' !! "name" = Some (PyStr n) → d' = d.
Proof.
  unfold descriptors. rewrite !elem_of_cons, elem_of_nil.
  intros [->|[->|[->|[->|[]]]]]; eexists;
    (split; [reflexivity |]);
    (split; [unfold descriptor_names; rewrite !elem_of_cons; tauto |]);
    intros d'; rewrite !elem_of_cons, elem_of_nil;
    intros [->|[->|[->|[->|[]]]]]; intros Hn;
    first [reflexivity | vm_compute in Hn; discriminate].
Qed.

Lemma descriptor_names_dot_free (n : string) :
  n ∈ descriptor_names → dot_free n.
Proof.
  unfold descriptor_names. rewrite !elem_of_cons, elem_of_nil.
  intros [->|[->|[->|[->|[]]]]]; by apply (bool_decide_unpack _).
Qed.

Lemma descriptor_names_tails (n1 n2 : string) :
  n1 ∈ descriptor_names → n2 ∈ descriptor_names →
  chars ("_" ++ n1)%string `suffix_of` chars ("_" ++ n2)%string → n1 = n2.
Proof.
  unfold descriptor_names. rewrite !elem_of_cons, !elem_of_nil.
  intros [->|[->|[->|[->|[]]]]] [->|[->|[->|[->|[]]]]];
    intros Hs;
    first [ reflexivity
          | exfalso; revert Hs;
            apply (bool_decide_eq_false_1 _); by vm_compute ].
Qed.

(** X8: the entities made from the module's four descriptors never collide,
    also across charge points: two of them with the same unique id, or with
    the same entity id, have the same charge point and the same descriptor. *)
Theorem descriptor_entities_distinct
    (c : Consts) (cp1 cp2 : string) (d1 d2 : dict)
    (sw1 sw2 : ChargePointSwitch) :
  d1 ∈ descriptors c → d2 ∈ descriptors c →
  __init__ c cp1 d1 = Ok sw1 →
  __init__ c cp2 d2 = Ok sw2 →
  _id sw1 = _id sw2 ∨ entity_id sw1 = entity_id sw2 →
  cp1 = cp2 ∧ d1 = d2.
Proof.
  intros Hd1 Hd2 Hi1 Hi2 Heq.
  destruct (descriptor_name c d1 Hd1) as (n1 & Hn1 & Hin1 & _).
  destruct (descriptor_name c d2 Hd2) as (n2 & Hn2 & Hin2 & Hsame).
  destruct (init_ids c cp1 d1 n1 Hn1) as (s1 & Hs1 & _ & _ & Hid1 & _ & He1).
  destruct (init_ids c cp2 d2 n2 Hn2) as (s2 & Hs2 & _ & _ & Hid2 & _ & He2).
  assert (s1 = sw1) by congruence. assert (s2 = sw2) by congruence.
  subst s1 s2.
  assert (Hboth : cp1 = cp2 ∧ n1 = n2).
  { destruct Heq as [Heq|Heq].
    - rewrite Hid1, Hid2 in Heq.
      apply (inj (String.app "switch.")) in Heq.
      apply (inj (String.app (DOMAIN c))) in Heq.
      apply (inj (String.app ".")) in Heq.
      apply dot_join_inj in Heq; auto using descriptor_names_dot_free.
    - rewrite He1, He2 in Heq.
      apply (inj (String.app "switch.")) in Heq.
      assert (Hn : n1 = n2).
      { destruct (join_tails _ _ _ _ Heq) as [Hs|Hs].
        - by apply descriptor_names_tails.
        - symmetry. by apply descriptor_names_tails. }
      subst n2. split; [| done]. by apply join_same_tail in Heq. }
  destruct Hboth as [-> ->]. split; [done |]. by apply Hsame.
Qed.

(** X9: when [hass.data] holds a central system under [DOMAIN] and the id of
    the entry, and the entry's data holds a string under [CONF_CPID],
    [async_setup_entry] raises nothing and calls [async_add_devices] once,
    with [update_before_add] false and one entity per descriptor, in the
    order of the list, each bound to that charge point; only Availability
    starts on, and the four unique ids and the four entity ids are pairwise
    different. *)
Theorem setup_entities {CS : Type} (c : Consts) (CONF_CPID : string)
    (hass : HomeAssistant CS) (entry : ConfigEntry)
    (by_entry : gmap string CS) (cs : CS) (cp : string) :
  hass_data hass !! DOMAIN c = Some by_entry →
  by_entry !! entry_id entry = Some cs →
  entry_data entry !! CONF_CPID = Some (PyStr cp) →
  ∃ sws, async_setup_entry c CONF_CPID hass entry
           = Ok {| central := cs; new_entities := sws;
                   update_before_add := false |}
         ∧ _purpose <$> sws = descriptors c
         ∧ cp_id <$> sws = [cp; cp; cp; cp]
         ∧ _state <$> sws = [false; true; false; false]
         ∧ NoDup (_id <$> sws)
         ∧ NoDup (entity_id <$> sws).
Proof.
  intros Hdomain Hentry Hcp.
  unfold async_setup_entry, dict_getitem. rewrite Hdomain, Hentry, Hcp.
  eexists. split; [reflexivity |].
  split; [reflexivity |]. split; [reflexivity |]. split; [reflexivity |].
  assert (Hnames : NoDup descriptor_names) by (by apply (bool_decide_unpack _)).
  split.
  - assert (Hinj : Inj (=) (=)
              (λ n, "switch." ++ DOMAIN c ++ "." ++ cp ++ "." ++ n)%string).
    { intros x y Heq.
      apply (inj (String.app "switch.")) in Heq.
      apply (inj (String.app (DOMAIN c))) in Heq.
      apply (inj (String.app ".")) in Heq.
      apply (inj (String.app cp)) in Heq.
      by apply (inj (String.app ".")) in Heq. }
    exact (NoDup_fmap_2 _ descriptor_names Hnames).
  - assert (Hinj : Inj (=) (=) (λ n, "switch." ++ cp ++ "_" ++ n)%string).
    { intros x y Heq.
      apply (inj (String.app "switch.")) in Heq.
      apply (inj (String.app cp)) in Heq.
      by apply (inj (String.app "_")) in Heq. }
    exact (NoDup_fmap_2 _ descriptor_names Hnames).
Qed.

(** X13: [async_setup_entry] raises [KeyError] with the missing key when
    [hass.data] has no [DOMAIN], when the domain's map has no entry id, or
    when the entry's data has no [CONF_CPID] (in that order), and [TypeError]
    when the value under [CONF_CPID] is not a string (from the first
    constructor call); in none of these cases is [async_add_devices]
    called. *)
Theorem setup_raises {CS : Type} (c : Consts) (CONF_CPID : string)
    (hass : HomeAssistant CS) (entry : ConfigEntry) :
  (hass_data hass !! DOMAIN c = None →
     async_setup_entry c CONF_CPID hass entry = Raise (KeyError (DOMAIN c)))
  ∧ (∀ by_entry,
       hass_data hass !! DOMAIN c = Some by_entry →
       by_entry !! entry_id entry = None →
       async_setup_entry c CONF_CPID hass entry
         = Raise (KeyError (entry_id entry)))
  ∧ (∀ by_entry cs,
       hass_data hass !! DOMAIN c = Some by_entry →
       by_entry !! entry_id entry = Some cs →
       entry_data entry !! CONF_CPID = None →
       async_setup_entry c CONF_CPID hass entry = Raise (KeyError CONF_CPID))
  ∧ (∀ by_entry cs v,
       hass_data hass !! DOMAIN c = Some by_entry →
       by_entry !! entry_id entry = Some cs →
       entry_data entry !! CONF_CPID = Some v →
       (∀ s, v ≠ PyStr s) →
       async_setup_entry c CONF_CPID hass entry = Raise TypeError).
Proof.
  unfold async_setup_entry, dict_getitem. repeat split.
  - by intros ->.
  - by intros by_entry -> ->.
  - by intros by_entry cs -> -> ->.
  - intros by_entry cs v -> -> -> Hv.
    destruct v as [| | |s]; [reflexivity .. | by destruct (Hv s)].
Qed.

(** ** Commands followed by a reading *)

Lemma py_eq_str_r (v : PyVal) (s : string) :
  py_eq v (PyStr s) = true → v = PyStr s.
Proof.
  destruct v as [| | |t]; simpl; try discriminate.
  intros Heq. f_equal. by apply String.eqb_eq.
Qed.

Section Sequences.
Context {CS : Type} `{!CentralSystem CS}.
Implicit Types (sw : ChargePointSwitch) (cs : CS) (log : list Call).

(** X10: on a descriptor without a metric key, what [is_on] returns after a
    command is decided by the answer to that command alone, whatever the
    cached state was before: after [async_turn_on] it is the answer (its
    negation for a pulse), after [async_turn_off] the negation of the answer,
    so that a refused turn-off reads on. *)
Theorem answer_decides_reading sw cs log (on off : PyVal) (prior : bool) :
  metric_driven (_purpose sw) = false →
  _purpose sw !! "on" = Some on →
  _purpose sw !! "off" = Some off → off ≠ PyNone →
  let state := if py_eq off on then Some false else None in
  let r_on := set_charger_state cs (cp_id sw) on None in
  let r_off := set_charger_state cs (cp_id sw) off state in
  (async_turn_on ;; is_on) (Build_Env (with_state prior sw) cs log)
    = Ok (if is_pulse (_purpose sw) then negb r_on.1 else r_on.1,
          Build_Env
            (with_state (if is_pulse (_purpose sw) then negb r_on.1 else r_on.1)
               sw)
            r_on.2 (log ++ [SetChargerState (cp_id sw) on None]))
  ∧ (async_turn_off ;; is_on) (Build_Env (with_state prior sw) cs log)
    = Ok (negb r_off.1,
          Build_Env (with_state (negb r_off.1) sw) r_off.2
            (log ++ [SetChargerState (cp_id sw) off state])).
Proof.
  intros Hm Hon Hoff Hnone state r_on r_off.
  assert (Hget : dict_get (_purpose sw) "off" = off)
    by (unfold dict_get; by rewrite Hoff).
  assert (Habs : off_absent (_purpose sw) = false)
    by (unfold off_absent; rewrite Hget; by destruct off).
  split.
  - unfold async_turn_on, is_on. run_method.
    unfold dict_getitem. rewrite Hon.
    destruct (is_pulse (_purpose sw)); simpl; by rewrite Hm.
  - unfold mbind at 1. unfold M_bind at 1.
    rewrite (async_turn_off_sent (with_state prior sw) cs log on Habs Hon).
    simpl. rewrite Hget. fold state. fold r_off.
    unfold is_on. run_method. by rewrite Hm.
Qed.

(** X11: on a descriptor without an ["off"] service and without a metric key
    (Reset, Unlock), turning on and then off sends exactly one command, the
    ["on"] service, and leaves the entity reading off, whatever the central
    system answered. *)
Theorem on_off_cycle_without_off sw cs log (on : PyVal) :
  off_absent (_purpose sw) = true →
  metric_driven (_purpose sw) = false →
  _purpose sw !! "on" = Some on →
  (async_turn_on ;; async_turn_off ;; is_on) (Build_Env sw cs log)
    = Ok (false,
          Build_Env (with_state false sw)
            (set_charger_state cs (cp_id sw) on None).2
            (log ++ [SetChargerState (cp_id sw) on None])).
Proof.
  intros Hoff Hm Hon.
  unfold async_turn_on, async_turn_off, is_on. run_method.
  unfold dict_getitem. rewrite Hon.
  destruct (is_pulse (_purpose sw)); simpl; rewrite Hoff; simpl;
    by rewrite Hm.
Qed.

(** X12: Charge_Control and Availability of one charge point compare the same
    reading with two conditions, so when the two values of
    [ChargePointStatus] differ the two switches never read on together. *)
Theorem charge_and_availability_exclusive
    (c : Consts) sw1 sw2 cs log1 log2 (r1 r2 : bool) (e1 e2 : Env CS) :
  ChargePointStatus_charging c ≠ ChargePointStatus_available c →
  _purpose sw1 = SWITCH_CHARGE c →
  _purpose sw2 = SWITCH_AVAILABILITY c →
  cp_id sw1 = cp_id sw2 →
  is_on (Build_Env sw1 cs log1) = Ok (r1, e1) →
  is_on (Build_Env sw2 cs log2) = Ok (r2, e2) →
  r1 && r2 = false.
Proof.
  intros Hne Hp1 Hp2 Hcp Hr1 Hr2.
  rewrite (is_on_metric_run sw1 cs log1 (PyStr (ChargePointStatus_charging c)))
    in Hr1 by (by rewrite Hp1).
  rewrite (is_on_metric_run sw2 cs log2 (PyStr (ChargePointStatus_available c)))
    in Hr2 by (by rewrite Hp2).
  rewrite Hp1 in Hr1. rewrite Hp2, <- Hcp in Hr2.
  change (dict_get (SWITCH_AVAILABILITY c) "metric")
    with (dict_get (SWITCH_CHARGE c) "metric") in Hr2.
  injection Hr1 as <- _. injection Hr2 as <- _.
  destruct (py_eq _ (PyStr (ChargePointStatus_charging c))) eqn:H1; [| done].
  destruct (py_eq _ (PyStr (ChargePointStatus_available c))) eqn:H2; [| done].
  apply py_eq_str_r in H1. apply py_eq_str_r in H2. congruence.
Qed.
End Sequences.

(** ** The further theorems at concrete inputs *)

(** A toggle with both services and neither metric nor pulse. *)
Definition lamp : dict :=
  dict_of [ ("name", PyStr "Lamp");
            ("on", PyStr "service_lamp_on");
            ("off", PyStr "service_lamp_off") ]%string.

(** A descriptor whose ["on"] service was forgotten. *)
Definition no_on : dict :=
  dict_of [ ("name", PyStr "Broken");
            ("off", PyStr "service_broken_off") ]%string.

(** Charge_Control read, turned on, metered, turned off and read again. *)
Lemma history_frame_witness :
  (cp_id (with_state true charge_sw) = cp_id charge_sw
   ∧ _purpose (with_state true charge_sw) = _purpose charge_sw
   ∧ _id (with_state true charge_sw) = _id charge_sw
   ∧ _name (with_state true charge_sw) = _name charge_sw
   ∧ entity_id (with_state true charge_sw) = entity_id charge_sw)
  ∧ ∃ made : list Call,
      [ GetMetric "CP1" (PyStr "Status");
        SetChargerState "CP1" (PyStr "service_charge_start") None;
        GetMetric "CP1" (PyStr "Power.Active.Import");
        SetChargerState "CP1" (PyStr "service_charge_stop") None;
        GetMetric "CP1" (PyStr "Status") ] = [] ++ made
      ∧ length made ≤ 5
      ∧ Forall (λ k, call_cp k = "CP1"%string) made.
Proof.
  exact (history_frame
           [IsOn; AsyncTurnOn; CurrentPowerW; AsyncTurnOff; IsOn]
           (Build_Env charge_sw (store "Charging" [true; true]) [])
           (Build_Env (with_state true charge_sw) (store "Charging" [])
              [ GetMetric "CP1" (PyStr "Status");
                SetChargerState "CP1" (PyStr "service_charge_start") None;
                GetMetric "CP1" (PyStr "Power.Active.Import");
                SetChargerState "CP1" (PyStr "service_charge_stop") None;
                GetMetric "CP1" (PyStr "Status") ])
           eq_refl).
Defined.

(** Every reading member used once on Availability: the script of answers is
    untouched. *)
Lemma reading_sends_no_command_witness :
  store "Available" [true] = store "Available" [true]
  ∧ ∃ made : list Call,
      [ GetMetric "CP1" (PyStr "Status");
        GetMetric "CP1" (PyStr "Power.Active.Import") ] = [] ++ made
      ∧ Forall (λ k, is_command k = false) made.
Proof.
  exact (proj1 (reading_sends_no_command
                  [IsOn; CurrentPowerW; Available; UniqueId; Name; Update]
                  (Build_Env availability_sw (store "Available" [true]) [])
                  eq_refl)
           (Build_Env availability_sw (store "Available" [true])
              [ GetMetric "CP1" (PyStr "Status");
                GetMetric "CP1" (PyStr "Power.Active.Import") ])
           eq_refl).
Defined.

(** Availability, created on, reads on after a refused turn-off only because
    the charge point reports "Available". *)
Lemma is_on_metric_after_history_witness :
  ∃ e'',
    is_on (Build_Env (with_state true availability_sw) (store "Available" [])
             [SetChargerState "CP1" (PyStr "service_availability") (Some false)])
    = Ok (true, e'').
Proof.
  exact (is_on_metric_after_history ocpp16 "CP1" (SWITCH_AVAILABILITY ocpp16)
           (PyStr "Available") availability_sw (store "Available" [false]) []
           [AsyncTurnOff]
           (Build_Env (with_state true availability_sw) (store "Available" [])
              [SetChargerState "CP1" (PyStr "service_availability") (Some false)])
           eq_refl eq_refl eq_refl eq_refl).
Defined.

Lemma commands_without_on_witness :
  async_turn_on (Build_Env (entity no_on "Broken" false) (store "Available" [true]) [])
    = Raise (KeyError "on")
  ∧ async_turn_off (Build_Env (entity no_on "Broken" false) (store "Available" [true]) [])
    = Raise (KeyError "on").
Proof.
  exact (commands_without_on (entity no_on "Broken" false)
           (store "Available" [true]) [] eq_refl).
Defined.

Lemma unique_id_injective_witness :
  "CP1"%string = "CP1"%string ∧ "Reset"%string = "Reset"%string.
Proof.
  refine (unique_id_injective ocpp16 "CP1" "CP1" SWITCH_RESET SWITCH_RESET
            "Reset" "Reset" reset_sw reset_sw
            eq_refl _ eq_refl _ eq_refl eq_refl eq_refl);
    by apply (bool_decide_unpack _).
Defined.

Lemma identifiers_ambiguous_witness :
  "a.b"%string ≠ "a"%string
  ∧ ("."%string = "."%string →
     "switch.ocpp.a.b.c"%string = "switch.ocpp.a.b.c"%string
     ∧ "a.b.c"%string = "a.b.c"%string)
  ∧ ("."%string = "_"%string →
     "switch.a.b_c"%string = "switch.a_b.c"%string).
Proof.
  exact (identifiers_ambiguous ocpp16 "a" "b" "c" "."
           (dict_of [("name", PyStr "c")]%string)
           (dict_of [("name", PyStr "b.c")]%string)
           {| cp_id := "a.b"; _state := false;
              _purpose := dict_of [("name", PyStr "c")]%string;
              _id := "switch.ocpp.a.b.c"; _name := "a.b.c";
              entity_id := "switch.a.b_c" |}
           {| cp_id := "a"; _state := false;
              _purpose := dict_of [("name", PyStr "b.c")]%string;
              _id := "switch.ocpp.a.b.c"; _name := "a.b.c";
              entity_id := "switch.a_b.c" |}
           (or_introl eq_refl) eq_refl eq_refl eq_refl eq_refl).
Defined.

Lemma descriptor_entities_distinct_witness :
  "CP1"%string = "CP1"%string ∧ SWITCH_UNLOCK = SWITCH_UNLOCK.
Proof.
  refine (descriptor_entities_distinct ocpp16 "CP1" "CP1"
            SWITCH_UNLOCK SWITCH_UNLOCK unlock_sw unlock_sw
            _ _ eq_refl eq_refl (or_intror eq_refl));
    unfold descriptors; rewrite !elem_of_cons; tauto.
Defined.

(** A refused command on the lamp: turning on reads off, turning off reads
    on, from either prior state. *)
Lemma answer_decides_reading_witness :
  (async_turn_on ;; is_on)
    (Build_Env (with_state true (entity lamp "Lamp" false))
       (store "Available" [false]) [])
    = Ok (false,
          Build_Env (with_state false (entity lamp "Lamp" false))
            (store "Available" [])
            [SetChargerState "CP1" (PyStr "service_lamp_on") None])
  ∧ (async_turn_off ;; is_on)
      (Build_Env (with_state true (entity lamp "Lamp" false))
         (store "Available" [false]) [])
    = Ok (true,
          Build_Env (with_state true (entity lamp "Lamp" false))
            (store "Available" [])
            [SetChargerState "CP1" (PyStr "service_lamp_off") None]).
Proof.
  refine (answer_decides_reading (entity lamp "Lamp" false)
            (store "Available" [false]) []
            (PyStr "service_lamp_on") (PyStr "service_lamp_off") true
            eq_refl eq_refl eq_refl _).
  discriminate.
Defined.

Lemma on_off_cycle_without_off_witness :
  (async_turn_on ;; async_turn_off ;; is_on)
    (Build_Env reset_sw (store "Available" [false]) [])
  = Ok (false,
        Build_Env (with_state false reset_sw) (store "Available" [])
          [SetChargerState "CP1" (PyStr "service_reset") None]).
Proof.
  exact (on_off_cycle_without_off reset_sw (store "Available" [false]) []
           (PyStr "service_reset") eq_refl eq_refl eq_refl).
Defined.

Lemma charge_and_availability_exclusive_witness : true && false = false.
Proof.
  refine (charge_and_availability_exclusive ocpp16
            charge_sw availability_sw (store "Charging" []) [] []
            true false
            (Build_Env (with_state true charge_sw) (store "Charging" [])
               [GetMetric "CP1" (PyStr "Status")])
            (Build_Env (with_state false availability_sw) (store "Charging" [])
               [GetMetric "CP1" (PyStr "Status")])
            _ eq_refl eq_refl eq_refl eq_refl eq_refl).
  discriminate.
Defined.

(** A host with one configuration entry of the integration. *)
Definition home : HomeAssistant Scripted :=
  {| hass_data :=
       {[ "ocpp"%string := {[ "entry1"%string := store "Available" [] ]} ]} |}.

Definition entry1 : ConfigEntry :=
  {| entry_id := "entry1";
     entry_data := dict_of [("cpid", PyStr "CP1")]%string |}.

(** An entry the integration stored nothing for, one without charge point
    id, and one whose charge point id is a number. *)
Definition entry2 : ConfigEntry :=
  {| entry_id := "entry2";
     entry_data := dict_of [("cpid", PyStr "CP2")]%string |}.

Definition entry_no_cpid : ConfigEntry :=
  {| entry_id := "entry1"; entry_data := ∅ |}.

Definition entry_int_cpid : ConfigEntry :=
  {| entry_id := "entry1";
     entry_data := dict_of [("cpid", PyInt 7)]%string |}.

Lemma setup_entities_witness :
  ∃ sws, async_setup_entry ocpp16 "cpid" home entry1
           = Ok {| central := store "Available" []; new_entities := sws;
                   update_before_add := false |}
         ∧ _purpose <$> sws = descriptors ocpp16
         ∧ cp_id <$> sws = ["CP1"; "CP1"; "CP1"; "CP1"]%string
         ∧ _state <$> sws = [false; true; false; false]
         ∧ NoDup (_id <$> sws)
         ∧ NoDup (entity_id <$> sws).
Proof.
  exact (setup_entities ocpp16 "cpid" home entry1
           {[ "entry1"%string := store "Available" [] ]}
           (store "Available" []) "CP1" eq_refl eq_refl eq_refl).
Defined.

Lemma setup_raises_witness :
  async_setup_entry ocpp16 "cpid" (Build_HomeAssistant (CS:=Scripted) ∅) entry1
    = Raise (KeyError "ocpp")
  ∧ async_setup_entry ocpp16 "cpid" home entry2 = Raise (KeyError "entry2")
  ∧ async_setup_entry ocpp16 "cpid" home entry_no_cpid
    = Raise (KeyError "cpid")
  ∧ async_setup_entry ocpp16 "cpid" home entry_int_cpid = Raise TypeError.
Proof.
  split; [| split; [| split]].
  - exact (proj1 (setup_raises ocpp16 "cpid"
                    (Build_HomeAssistant (CS:=Scripted) ∅) entry1) eq_refl).
  - exact (proj1 (proj2 (setup_raises ocpp16 "cpid" home entry2))
             {[ "entry1"%string := store "Available" [] ]} eq_refl eq_refl).
  - exact (proj1 (proj2 (proj2 (setup_raises ocpp16 "cpid" home entry_no_cpid)))
             {[ "entry1"%string := store "Available" [] ]}
             (store "Available" []) eq_refl eq_refl eq_refl).
  - refine (proj2 (proj2 (proj2 (setup_raises ocpp16 "cpid" home entry_int_cpid)))
              {[ "entry1"%string := store "Available" [] ]}
              (store "Available" []) (PyInt 7) eq_refl eq_refl eq_refl _).
    discriminate.
Defined.
